(** * fibernewrelic: the New Relic middleware for Fiber

  A shallow embedding of [fibernewrelic/fiber.go].  The package is one
  constructor, [New], returning a request handler that wraps the rest of
  the handler chain in a monitoring transaction, plus four helpers:
  [FromContext], [createTransactionName], [transport] and
  [DefaultErrorStatusCodeHandler].

  Go strings are byte sequences and are modelled by [string]; Go's [int]
  is modelled by [Z] (no arithmetic is performed on status codes, so no
  wrap-around arises).  The Fiber context [*fiber.Ctx] is a pointer to a
  mutable object: it is modelled by a record that is threaded through a
  state monad.  Calls into the monitoring library are recorded, in order
  and with their arguments, in a trace. *)

From Stdlib Require Import String Ascii List ZArith Bool Arith Lia.
Import ListNotations.
Open Scope string_scope.

(** ** Go runtime values *)

Module Go.

(** Dynamic values of the [error] interface.  [FiberError] is a (non-nil)
    [*fiber.Error], the only error type of the framework that has a [Code]
    field; [ErrorString] is what [errors.New] and a [fmt.Errorf] without
    [%w] build; [WrapError] is what [fmt.Errorf] builds with [%w]: it has its
    own message and an [Unwrap] method that returns the wrapped error. *)
Inductive ErrorValue : Type :=
| FiberError (Code : Z) (Message : string)
| ErrorString (s : string)
| WrapError (msg : string) (wrapped : ErrorValue).

(** A value of interface type [error]: [None] is the nil interface. *)
Definition error_t : Type := option ErrorValue.

(** The [Error() string] method. *)
Definition Error (e : ErrorValue) : string :=
  match e with
  | FiberError _ m => m
  | ErrorString s => s
  | WrapError m _ => m
  end.

(** The [Unwrap() error] method, where the dynamic type has one. *)
Definition Unwrap (e : ErrorValue) : error_t :=
  match e with
  | WrapError _ w => Some w
  | _ => None
  end.

(** The type assertion [err.( *fiber.Error)]: it inspects the dynamic type
    of the interface value only, and does not unwrap. *)
Definition assert_fiber_Error (err : error_t) : option (Z * string) :=
  match err with
  | Some (FiberError code msg) => Some (code, msg)
  | _ => None
  end.

(** [errors.As(err, &fiberErr)]: walks the [Unwrap] chain until a
    [*fiber.Error] is met.  The source does not call it; it is the
    reference point for what "wrapping" an error means. *)
Fixpoint errors_As_fiber (e : ErrorValue) : option (Z * string) :=
  match e with
  | FiberError code msg => Some (code, msg)
  | ErrorString _ => None
  | WrapError _ w => errors_As_fiber w
  end.

(** [strings.HasPrefix(s, prefix)], as the standard library writes it:
    [len(s) >= len(prefix) && s[:len(prefix)] == prefix]. *)
Definition HasPrefix (s prefix : string) : bool :=
  (String.length prefix <=? String.length s)%nat
  && String.eqb (substring 0 (String.length prefix) s) prefix.

(** [fmt.Sprintf] restricted to what the package uses: literal bytes, the
    verb [%s] applied to string (or byte-slice) operands, and [%%].  A verb
    without an operand prints [%!s(MISSING)] as in Go; the package never
    passes surplus operands, and they are dropped here. *)
Fixpoint Sprintf (format : string) (args : list string) : string :=
  match format with
  | EmptyString => EmptyString
  | String "%" (String "s" rest) =>
      match args with
      | a :: args' => a ++ Sprintf rest args'
      | [] => "%!s(MISSING)" ++ Sprintf rest []
      end
  | String "%" (String "%" rest) => String "%" (Sprintf rest args)
  | String ch rest => String ch (Sprintf rest args)
  end.

(** [fmt.Errorf] for the two shapes the package uses: a format without
    operands, and a format whose only verb is [%w] applied to an error. *)
Definition Errorf0 (format : string) : ErrorValue :=
  ErrorString (Sprintf format []).

Fixpoint subst_w (format : string) (arg : string) : string :=
  match format with
  | EmptyString => EmptyString
  | String "%" (String "w" rest) => arg ++ rest
  | String ch rest => String ch (subst_w rest arg)
  end.

Definition Errorf_w (format : string) (err : ErrorValue) : ErrorValue :=
  WrapError (subst_w format (Error err)) err.

(** What a call can do besides returning: panic.  The value a panic
    carries is modelled by an error value. *)
Inductive Outcome (A : Type) : Type :=
| Returned (a : A)
| Panicked (v : ErrorValue).
Arguments Returned {A} a.
Arguments Panicked {A} v.

End Go.
Export Go.

(** ** The monitoring library (github.com/newrelic/go-agent/v3/newrelic)

  The library is a collaborator of the package, not part of it.  What the
  package relies on is modelled here: handles for applications and
  transactions, the request metadata record, the transport constants, and
  the two context helpers, which store and look up a transaction in a
  [context.Context] under a key private to the library. *)

Module NewRelic.

(** [*newrelic.Application]: a non-nil handle. *)
Inductive Application : Type := AppHandle (id : nat).

(** [*newrelic.Transaction]: a non-nil handle; two transactions are the
    same instance exactly when their handles are equal. *)
Definition Transaction : Type := nat.

Inductive TransportType : Type :=
| TransportUnknown
| TransportHTTP
| TransportHTTPS.

(** [url.URL], the fields the package fills in. *)
Record URL : Type := mkURL {
  url_Scheme : string;
  url_Host : string;
  url_Path : string;
  url_RawQuery : string
}.

(** [newrelic.WebRequest], the fields the package fills in. *)
Record WebRequest : Type := mkWebRequest {
  wr_Host : string;
  wr_Method : string;
  wr_Transport : TransportType;
  wr_URL : URL
}.

(** Keys of a [context.Context]: the library's two private keys and the
    keys of everybody else. *)
Inductive ContextKey : Type :=
| TransactionContextKey
| GinTransactionContextKey
| UserKey (name : string).

Definition ContextKey_eqb (a b : ContextKey) : bool :=
  match a, b with
  | TransactionContextKey, TransactionContextKey => true
  | GinTransactionContextKey, GinTransactionContextKey => true
  | UserKey x, UserKey y => String.eqb x y
  | _, _ => false
  end.

(** Values stored in a context: a transaction or anything else. *)
Inductive ContextValue : Type :=
| TxnValue (t : Transaction)
| OtherValue (s : string).

(** [context.Context]: [context.Background()] extended by
    [context.WithValue]. *)
Inductive Context : Type :=
| Background
| WithValue (parent : Context) (key : ContextKey) (val : ContextValue).

(** [ctx.Value(key)]: the innermost binding of the key. *)
Fixpoint Value (ctx : Context) (key : ContextKey) : option ContextValue :=
  match ctx with
  | Background => None
  | WithValue parent k v =>
      if ContextKey_eqb k key then Some v else Value parent key
  end.

(** [newrelic.NewContext(ctx, txn)]. *)
Definition NewContext (ctx : Context) (txn : Transaction) : Context :=
  WithValue ctx TransactionContextKey (TxnValue txn).

(** [newrelic.FromContext(ctx)]: the transaction under the library's key,
    else the one under the key its Gin integration uses, else nil. *)
Definition FromContext (ctx : Context) : option Transaction :=
  match Value ctx TransactionContextKey with
  | Some (TxnValue t) => Some t
  | _ =>
      match Value ctx GinTransactionContextKey with
      | Some (TxnValue t) => Some t
      | _ => None
      end
  end.

End NewRelic.

(** ** The web framework (github.com/gofiber/fiber/v2) *)

Module Fiber.

(** The state of a [*fiber.Ctx], as seen through the accessors the package
    calls: each field holds what the accessor named in its comment
    returns. *)
Record Ctx : Type := mkCtx {
  Hostname : string;               (* c.Hostname() *)
  Method : string;                 (* c.Method() *)
  HeaderMethod : string;           (* c.Request().Header.Method() *)
  URIScheme : string;              (* c.Request().URI().Scheme() *)
  URIPath : string;                (* c.Request().URI().Path() *)
  URIQueryString : string;         (* c.Request().URI().QueryString() *)
  ResponseStatusCode : Z;          (* c.Context().Response.StatusCode() *)
  UserContext : NewRelic.Context   (* c.UserContext() *)
}.

(** [c.SetUserContext(ctx)]. *)
Definition SetUserContext (c : Ctx) (uc : NewRelic.Context) : Ctx :=
  {| Hostname := Hostname c;
     Method := Method c;
     HeaderMethod := HeaderMethod c;
     URIScheme := URIScheme c;
     URIPath := URIPath c;
     URIQueryString := URIQueryString c;
     ResponseStatusCode := ResponseStatusCode c;
     UserContext := uc |}.

(** The rest of the handler chain, which [c.Next()] runs: it may change
    the context it is given, and it returns an error (possibly nil) or
    panics. *)
Definition Downstream : Type := Ctx -> Outcome error_t * Ctx.

End Fiber.
Export Fiber.

(** ** The package *)

Module FiberNewRelic.

Import NewRelic.

(** *** Pure helpers *)

(** [DefaultErrorStatusCodeHandler]. *)
Definition DefaultErrorStatusCodeHandler (c : Ctx) (err : error_t) : Z :=
  match assert_fiber_Error err with
  | Some (Code, _) => Code
  | None => ResponseStatusCode c
  end.

(** [createTransactionName]. *)
Definition createTransactionName (c : Ctx) : string :=
  Sprintf "%s %s" [HeaderMethod c; URIPath c].

(** [transport]. *)
Definition transport (schema : string) : TransportType :=
  if HasPrefix schema "https" then TransportHTTPS
  else if HasPrefix schema "http" then TransportHTTP
  else TransportUnknown.

(** [FromContext]. *)
Definition FromContext (c : Ctx) : option Transaction :=
  NewRelic.FromContext (UserContext c).

(** *** Configuration *)

(** [Config].  A nil [Application] pointer and a nil
    [ErrorStatusCodeHandler] function are [None]; a non-nil
    [ErrorStatusCodeHandler] is a mapping from the context and the error to
    a status code. *)
Record Config : Type := mkConfig {
  License : string;
  AppName : string;
  Enabled : bool;
  TransportType : string;
  Application : option NewRelic.Application;
  ErrorStatusCodeHandler : option (Ctx -> error_t -> Z)
}.

(** [ConfigDefault]; the field the literal leaves out, [TransportType],
    has its zero value. *)
Definition ConfigDefault : Config :=
  {| Application := None;
     License := "";
     AppName := "fiber-api";
     Enabled := false;
     TransportType := "";
     ErrorStatusCodeHandler := Some DefaultErrorStatusCodeHandler |}.

(** The assignments [New] makes to its own copy of the configuration. *)
Definition set_ErrorStatusCodeHandler
    (cfg : Config) (h : option (Ctx -> error_t -> Z)) : Config :=
  {| License := License cfg; AppName := AppName cfg; Enabled := Enabled cfg;
     TransportType := TransportType cfg; Application := Application cfg;
     ErrorStatusCodeHandler := h |}.

Definition set_AppName (cfg : Config) (name : string) : Config :=
  {| License := License cfg; AppName := name; Enabled := Enabled cfg;
     TransportType := TransportType cfg; Application := Application cfg;
     ErrorStatusCodeHandler := ErrorStatusCodeHandler cfg |}.

(** Assignments a caller can make before calling [New]. *)
Definition set_TransportType (cfg : Config) (t : string) : Config :=
  {| License := License cfg; AppName := AppName cfg; Enabled := Enabled cfg;
     TransportType := t; Application := Application cfg;
     ErrorStatusCodeHandler := ErrorStatusCodeHandler cfg |}.

(** *** The middleware's effects *)

(** What the middleware does to its collaborators, in the order it does
    it.  [EvNext c r] is the call [c.Next()]: [c] is the state of the
    context when the call is made, [r] is what came back. *)
Inductive Event : Type :=
| EvStartTransaction (app : NewRelic.Application) (name : string) (txn : Transaction)
| EvSetWebRequest (txn : Transaction) (r : WebRequest)
| EvNext (c : Ctx) (r : Outcome error_t)
| EvNoticeError (txn : Transaction) (err : error_t)
| EvSetWebResponse (txn : Transaction)
| EvWriteHeader (txn : Transaction) (statusCode : Z)
| EvEnd (txn : Transaction).

(** The state a request runs in: the Fiber context the handler's argument
    points to, the number of transactions the monitoring library has handed
    out, and the trace so far (oldest event first). *)
Record World : Type := mkWorld {
  w_ctx : Ctx;
  w_txns : nat;
  w_trace : list Event
}.

(** A Go function body: it transforms the world and returns or panics. *)
Definition M (A : Type) : Type := World -> Outcome A * World.

Definition ret {A} (a : A) : M A := fun w => (Returned a, w).

Definition bind {A B} (m : M A) (k : A -> M B) : M B :=
  fun w =>
    match m w with
    | (Returned a, w') => k a w'
    | (Panicked v, w') => (Panicked v, w')
    end.

(** [defer d; body]: [d] runs when [body] is left, by return or by panic.
    If [d] returns, the outcome of [body] stands. *)
Definition Defer {A} (d : M unit) (body : M A) : M A :=
  fun w =>
    match body w with
    | (r, w') =>
        match d w' with
        | (Returned _, w'') => (r, w'')
        | (Panicked v, w'') => (Panicked v, w'')
        end
    end.

Declare Scope go_scope.
Delimit Scope go_scope with go.
Notation "x <- m ;; k" := (bind m (fun x => k))
  (at level 61, m at next level, right associativity) : go_scope.
Notation "m ;;; k" := (bind m (fun _ => k))
  (at level 61, right associativity) : go_scope.
Open Scope go_scope.

Definition emit (e : Event) : M unit :=
  fun w =>
    (Returned tt,
     {| w_ctx := w_ctx w; w_txns := w_txns w;
        w_trace := w_trace w ++ [e] |}).

(** Reading through the pointer [c]. *)
Definition readCtx : M Ctx := fun w => (Returned (w_ctx w), w).

(** [app.StartTransaction(name)]: a new transaction, distinct from all
    earlier ones. *)
Definition StartTransaction (app : NewRelic.Application) (name : string)
  : M Transaction :=
  fun w =>
    let txn := w_txns w in
    (Returned txn,
     {| w_ctx := w_ctx w; w_txns := S txn;
        w_trace := w_trace w ++ [EvStartTransaction app name txn] |}).

(** [c.SetUserContext(ctx)], through the pointer. *)
Definition setUserContext (uc : Context) : M unit :=
  fun w =>
    (Returned tt,
     {| w_ctx := SetUserContext (w_ctx w) uc; w_txns := w_txns w;
        w_trace := w_trace w |}).

(** [c.Next()]: the rest of the chain runs on the context. *)
Definition Next (next : Downstream) : M error_t :=
  fun w =>
    match next (w_ctx w) with
    | (r, c') =>
        (r, {| w_ctx := c'; w_txns := w_txns w;
               w_trace := w_trace w ++ [EvNext (w_ctx w) r] |})
    end.

(** Calling the function value [cfg.ErrorStatusCodeHandler]; calling a nil
    function panics. *)
Definition nilDereference : ErrorValue :=
  ErrorString "runtime error: invalid memory address or nil pointer dereference".

Definition callErrorStatusCodeHandler
    (cfg : Config) (c : Ctx) (err : error_t) : M Z :=
  fun w =>
    match ErrorStatusCodeHandler cfg with
    | Some h => (Returned (h c err), w)
    | None => (Panicked nilDereference, w)
    end.

(** [fiber.Handler], with the rest of the chain made explicit. *)
Definition Handler : Type := Downstream -> M error_t.

(** The closure [New] returns; [cfg] and [app] are the variables it
    captures. *)
Definition handler (cfg : Config) (app : NewRelic.Application) : Handler :=
  fun next =>
    c <- readCtx ;;
    txn <- StartTransaction app (createTransactionName c) ;;
    Defer (emit (EvEnd txn))
      (c <- readCtx ;;
       let scheme := URIScheme c in
       emit (EvSetWebRequest txn
               {| wr_Host := Hostname c;
                  wr_Method := Method c;
                  wr_Transport := transport scheme;
                  wr_URL := {| url_Host := Hostname c;
                               url_Scheme := URIScheme c;
                               url_Path := URIPath c;
                               url_RawQuery := URIQueryString c |} |}) ;;;
       setUserContext (NewContext (UserContext c) txn) ;;;
       handlerErr <- Next next ;;
       c <- readCtx ;;
       let statusCode := ResponseStatusCode c in
       statusCode <-
         match handlerErr with
         | Some _ =>
             statusCode <- callErrorStatusCodeHandler cfg c handlerErr ;;
             emit (EvNoticeError txn handlerErr) ;;;
             ret statusCode
         | None => ret statusCode
         end ;;
       emit (EvSetWebResponse txn) ;;;
       emit (EvWriteHeader txn statusCode) ;;;
       ret handlerErr).

(** *** Construction *)

Section Construction.

(** [newrelic.NewApplication] applied to [ConfigAppName], [ConfigLicense]
    and [ConfigEnabled] options: it returns an application and a nil
    error, or a nil application and an error. *)
Variable NewApplication : string -> string -> bool -> NewRelic.Application + ErrorValue.

(** [New].  A panic at construction leaves no handler. *)
Definition New (cfg : Config) : Outcome Handler :=
  let cfg :=
    match ErrorStatusCodeHandler cfg with
    | None =>
        set_ErrorStatusCodeHandler cfg (ErrorStatusCodeHandler ConfigDefault)
    | Some _ => cfg
    end in
  match Application cfg with
  | Some app => Returned (handler cfg app)
  | None =>
      let cfg :=
        if String.eqb (AppName cfg) "" then set_AppName cfg (AppName ConfigDefault)
        else cfg in
      if String.eqb (License cfg) "" then
        Panicked
          (Errorf0 "unable to create New Relic Application -> License can not be empty")
      else
        match NewApplication (AppName cfg) (License cfg) (Enabled cfg) with
        | inr err =>
            Panicked (Errorf_w "unable to create New Relic Application -> %w" err)
        | inl app => Returned (handler cfg app)
        end
  end.

End Construction.

End FiberNewRelic.

(** ** Vocabulary of the properties *)

Module Vocabulary.

Import NewRelic FiberNewRelic.

(** [p] is a prefix of [s], byte for byte. *)
Definition IsPrefix (p s : string) : Prop := exists rest, s = p ++ rest.

(** The events a run added to the trace. *)
Definition emitted (before after : World) : list Event :=
  skipn (length (w_trace before)) (w_trace after).

Definition isStart (e : Event) : bool :=
  match e with EvStartTransaction _ _ _ => true | _ => false end.
Definition isNext (e : Event) : bool :=
  match e with EvNext _ _ => true | _ => false end.
Definition isNoticeError (e : Event) : bool :=
  match e with EvNoticeError _ _ => true | _ => false end.
Definition isWriteHeader (e : Event) : bool :=
  match e with EvWriteHeader _ _ => true | _ => false end.
Definition isEnd (e : Event) : bool :=
  match e with EvEnd _ => true | _ => false end.

(** How many events of a kind a trace holds. *)
Definition count (p : Event -> bool) (l : list Event) : nat :=
  length (filter p l).

(** Every event of kind [p] comes strictly before every event of kind
    [q]. *)
Definition Precedes (p q : Event -> bool) (l : list Event) : Prop :=
  forall i j a b,
    nth_error l i = Some a -> nth_error l j = Some b ->
    p a = true -> q b = true -> (i < j)%nat.

(** The same, as a check: after an event of kind [q], none of kind [p],
    and no event is of both kinds. *)
Fixpoint precedesb (p q : Event -> bool) (l : list Event) : bool :=
  match l with
  | [] => true
  | e :: l' =>
      (if q e then negb (p e) && forallb (fun x => negb (p x)) l' else true)
      && precedesb p q l'
  end.

(** The mapping from errors to status codes a configuration stands for:
    the configured function, or the default one when none is configured. *)
Definition statusCodeHandlerOf (cfg : Config) : Ctx -> error_t -> Z :=
  match ErrorStatusCodeHandler cfg with
  | Some h => h
  | None => DefaultErrorStatusCodeHandler
  end.

(** The panic value of a construction without credential. *)
Definition LicenseEmpty : ErrorValue :=
  ErrorString
    "unable to create New Relic Application -> License can not be empty".

(** No value stored anywhere in the context is a transaction: the context
    of a request the middleware has not handled. *)
Fixpoint carriesNoTransaction (ctx : Context) : bool :=
  match ctx with
  | Background => true
  | WithValue parent _ (TxnValue _) => false
  | WithValue parent _ (OtherValue _) => carriesNoTransaction parent
  end.

(** Two constructions are indistinguishable: both panic with the same
    value, or both return handlers that act alike on every request. *)
Definition SameConstruction (a b : Outcome Handler) : Prop :=
  match a, b with
  | Returned h1, Returned h2 => forall next w, h1 next w = h2 next w
  | Panicked v1, Panicked v2 => v1 = v2
  | _, _ => False
  end.

(** The context as the rest of the chain receives it from a request that
    enters the middleware in world [w]. *)
Definition published (w : World) : Ctx :=
  SetUserContext (w_ctx w) (NewContext (UserContext (w_ctx w)) (w_txns w)).

(** The request metadata the middleware derives from a context. *)
Definition webRequestOf (c : Ctx) : WebRequest :=
  {| wr_Host := Hostname c;
     wr_Method := Method c;
     wr_Transport := transport (URIScheme c);
     wr_URL := {| url_Scheme := URIScheme c;
                  url_Host := Hostname c;
                  url_Path := URIPath c;
                  url_RawQuery := URIQueryString c |} |}.

(** The events between the return of the rest of the chain and the end of
    the transaction: [r] is what the chain did, [c] the context it left,
    [h] the mapping from errors to status codes. *)
Definition reported
    (h : Ctx -> error_t -> Z) (txn : Transaction) (r : Outcome error_t)
    (c : Ctx) : list Event :=
  match r with
  | Returned None =>
      [EvSetWebResponse txn; EvWriteHeader txn (ResponseStatusCode c)]
  | Returned (Some e) =>
      [EvNoticeError txn (Some e); EvSetWebResponse txn;
       EvWriteHeader txn (h c (Some e))]
  | Panicked _ => []
  end.

(** All events of one request. *)
Definition requestEvents
    (app : NewRelic.Application) (h : Ctx -> error_t -> Z) (next : Downstream)
    (w : World) : list Event :=
  let txn := w_txns w in
  let c1 := published w in
  [EvStartTransaction app (createTransactionName (w_ctx w)) txn;
   EvSetWebRequest txn (webRequestOf (w_ctx w));
   EvNext c1 (fst (next c1))]
  ++ reported h txn (fst (next c1)) (snd (next c1))
  ++ [EvEnd txn].

Definition isSetWebRequest (e : Event) : bool :=
  match e with EvSetWebRequest _ _ => true | _ => false end.
Definition isSetWebResponse (e : Event) : bool :=
  match e with EvSetWebResponse _ => true | _ => false end.

(** The transaction a call into the monitoring library is made on. *)
Definition txnOf (e : Event) : option Transaction :=
  match e with
  | EvStartTransaction _ _ t => Some t
  | EvSetWebRequest t _ => Some t
  | EvNext _ _ => None
  | EvNoticeError t _ => Some t
  | EvSetWebResponse t => Some t
  | EvWriteHeader t _ => Some t
  | EvEnd t => Some t
  end.

(** The string holds no space byte, as the method of a parsed request
    line. *)
Fixpoint noSpace (s : string) : bool :=
  match s with
  | EmptyString => true
  | String ch rest => negb (Ascii.eqb ch " ") && noSpace rest
  end.

(** The name [New] gives the library for the application: the configured
    one, or the default when none is configured. *)
Definition applicationNameOf (cfg : Config) : string :=
  if String.eqb (AppName cfg) "" then "fiber-api" else AppName cfg.

(** A call [FromContext(c)] made by code that runs in a world. *)
Definition callFromContext : M (option Transaction) :=
  (c <- readCtx ;; ret (FromContext c))%go.

(** Sample inputs: a request, the world it arrives in, a configuration
    with an injected application, and three ways the rest of the chain can
    end. *)
Definition sampleCtx : Ctx :=
  mkCtx "example.com" "GET" "GET" "https" "/users/42" "page=2" 200 Background.

Definition sampleWorld : World := mkWorld sampleCtx 3 [].

Definition sampleConfig : Config :=
  mkConfig "" "" false "" (Some (AppHandle 7)) None.

Definition sampleMiddleware : Handler :=
  handler (set_ErrorStatusCodeHandler sampleConfig
             (Some DefaultErrorStatusCodeHandler))
          (AppHandle 7).

Definition noLibrary : string -> string -> bool -> NewRelic.Application + ErrorValue :=
  fun _ _ _ => inr (ErrorString "no collector").

Definition chainOK : Downstream := fun c => (Returned None, c).

Definition chainNotFound : Downstream :=
  fun c => (Returned (Some (FiberError 404 "Not Found")), c).

Definition chainPanics : Downstream :=
  fun c => (Panicked (ErrorString "index out of range"), c).

End Vocabulary.

(** ** Properties *)

Module Properties.

Import NewRelic FiberNewRelic Vocabulary.

(** *** Strings *)

Lemma append_empty (s : string) : s ++ "" = s.
Proof. induction s as [|a s IH]; simpl; [reflexivity | now rewrite IH]. Qed.

Lemma substring_prefix_append (p rest : string) :
  substring 0 (String.length p) (p ++ rest) = p.
Proof.
  induction p as [|a p IH]; simpl.
  - destruct rest; reflexivity.
  - now rewrite IH.
Qed.

Lemma length_append (p rest : string) :
  String.length (p ++ rest) = (String.length p + String.length rest)%nat.
Proof. induction p as [|a p IH]; simpl; [reflexivity | now rewrite IH]. Qed.

Lemma substring_prefix_split (p : string) :
  forall s, (String.length p <= String.length s)%nat ->
            substring 0 (String.length p) s = p ->
            exists rest, s = p ++ rest.
Proof.
  induction p as [|a p IH]; intros s Hlen Hsub.
  - exists s; reflexivity.
  - destruct s as [|b s]; simpl in Hlen; [lia|].
    simpl in Hsub. injection Hsub as Hb Hrest.
    destruct (IH s) as [rest Hs]; [lia | exact Hrest |].
    exists rest. simpl. now rewrite Hb, <- Hs.
Qed.

(** [strings.HasPrefix] decides the prefix relation. *)
Lemma HasPrefix_spec (s p : string) :
  HasPrefix s p = true <-> IsPrefix p s.
Proof.
  unfold HasPrefix, IsPrefix. split.
  - intros H. apply andb_true_iff in H as [Hlen Heq].
    apply Nat.leb_le in Hlen. apply String.eqb_eq in Heq.
    now apply substring_prefix_split.
  - intros [rest ->]. apply andb_true_iff. split.
    + apply Nat.leb_le. rewrite length_append. lia.
    + apply String.eqb_eq. apply substring_prefix_append.
Qed.

Lemma HasPrefix_false (s p : string) :
  HasPrefix s p = false <-> ~ IsPrefix p s.
Proof.
  rewrite <- HasPrefix_spec. destruct (HasPrefix s p); split; intro H;
    try reflexivity; try discriminate; try (intro; discriminate).
  exfalso; now apply H.
Qed.

(** *** Errors *)

(** [errors_As_fiber] is the walk [errors.As] makes: the type assertion on
    the error itself, then on what [Unwrap] gives, and so on. *)
Lemma errors_As_fiber_unfold (e : ErrorValue) :
  errors_As_fiber e =
    match assert_fiber_Error (Some e) with
    | Some found => Some found
    | None =>
        match Unwrap e with
        | Some w => errors_As_fiber w
        | None => None
        end
    end.
Proof. destruct e; reflexivity. Qed.

(** *** Traces *)

Lemma emitted_app (w : World) (c : Ctx) (n : nat) (evs : list Event) :
  emitted w (mkWorld c n (w_trace w ++ evs)) = evs.
Proof.
  unfold emitted; simpl.
  rewrite skipn_app, skipn_all, Nat.sub_diag. reflexivity.
Qed.

Lemma forallb_nth_error (p : Event -> bool) (l : list Event) :
  forallb p l = true ->
  forall i a, nth_error l i = Some a -> p a = true.
Proof.
  intros H i a Hi. rewrite forallb_forall in H.
  apply H. eapply nth_error_In; eauto.
Qed.

(** The check is sound for the ordering it checks. *)
Lemma precedesb_sound (p q : Event -> bool) (l : list Event) :
  precedesb p q l = true -> Precedes p q l.
Proof.
  unfold Precedes. induction l as [|e l IH]; intros H i j a b Hi Hj Hp Hq.
  - destruct i; discriminate.
  - simpl in H. apply andb_true_iff in H as [Hhead Htail].
    destruct i as [|i], j as [|j]; simpl in Hi, Hj.
    + injection Hi as <-. injection Hj as <-.
      rewrite Hq in Hhead. apply andb_true_iff in Hhead as [Hneg _].
      rewrite Hp in Hneg. discriminate.
    + lia.
    + injection Hj as <-. rewrite Hq in Hhead.
      apply andb_true_iff in Hhead as [_ Hall].
      pose proof (forallb_nth_error _ _ Hall i a Hi) as Hn.
      simpl in Hn. rewrite Hp in Hn. discriminate.
    + apply -> Nat.succ_lt_mono. eapply IH; eauto.
Qed.

(** *** One request through the closure *)

Lemma handler_run (cfg : Config) (app : NewRelic.Application)
      (h : Ctx -> error_t -> Z) (next : Downstream) (w : World) :
  ErrorStatusCodeHandler cfg = Some h ->
  handler cfg app next w =
    (fst (next (published w)),
     mkWorld (snd (next (published w))) (S (w_txns w))
             (w_trace w ++ requestEvents app h next w)).
Proof.
  intros Hh.
  unfold requestEvents, handler, bind, Defer, readCtx, StartTransaction,
    emit, setUserContext, Next, callErrorStatusCodeHandler, ret, published,
    webRequestOf.
  cbn [w_ctx w_txns w_trace]. rewrite Hh.
  destruct (next _) as [[[e|]|v] c2]; cbn [fst snd reported w_ctx w_txns w_trace];
    repeat rewrite <- app_assoc; reflexivity.
Qed.

(** What [New] can return: the closure, over a configuration whose error
    mapping is set, never a nil function. *)
Lemma New_returns
      (newApp : string -> string -> bool -> NewRelic.Application + ErrorValue)
      (cfg : Config) (mw : Handler) :
  New newApp cfg = Returned mw ->
  exists cfg' app,
    mw = handler cfg' app
    /\ ErrorStatusCodeHandler cfg' = Some (statusCodeHandlerOf cfg).
Proof.
  unfold New, statusCodeHandlerOf.
  destruct cfg as [lic name en tt [app|] [h|]]; cbn.
  - intros [= <-]. eexists _, _. split; reflexivity.
  - intros [= <-]. eexists _, _. split; reflexivity.
  - destruct (String.eqb name ""); cbn;
      (destruct (String.eqb lic ""); [discriminate|]);
      destruct (newApp _ _ _); try discriminate;
      intros [= <-]; eexists _, _; split; reflexivity.
  - destruct (String.eqb name ""); cbn;
      (destruct (String.eqb lic ""); [discriminate|]);
      destruct (newApp _ _ _); try discriminate;
      intros [= <-]; eexists _, _; split; reflexivity.
Qed.

(** One request through a middleware [New] returned. *)
Lemma middleware_run
      (newApp : string -> string -> bool -> NewRelic.Application + ErrorValue)
      (cfg : Config) (mw : Handler) :
  New newApp cfg = Returned mw ->
  exists app, forall next w,
    mw next w =
      (fst (next (published w)),
       mkWorld (snd (next (published w))) (S (w_txns w))
               (w_trace w
                  ++ requestEvents app (statusCodeHandlerOf cfg) next w)).
Proof.
  intros H. destruct (New_returns _ _ _ H) as (cfg' & app & -> & Hh).
  exists app. intros next w. now apply handler_run.
Qed.

(** *** The helpers *)

(** C4.  For every scheme string, [transport] answers [TransportHTTPS] when
    the string starts with the bytes of https, [TransportHTTP] when it
    starts with those of http but not with those of https, and
    [TransportUnknown] otherwise.  Bytes are compared as they are, so the
    upper-case scheme HTTPS is unknown. *)
Theorem transport_classification (s : string) :
  (IsPrefix "https" s -> transport s = TransportHTTPS)
  /\ (IsPrefix "http" s -> ~ IsPrefix "https" s ->
      transport s = TransportHTTP)
  /\ (~ IsPrefix "https" s -> ~ IsPrefix "http" s ->
      transport s = TransportUnknown)
  /\ transport "HTTPS" = TransportUnknown.
Proof.
  unfold transport. repeat split.
  - intros H. apply HasPrefix_spec in H. now rewrite H.
  - intros Hp Hs. apply HasPrefix_spec in Hp. apply HasPrefix_false in Hs.
    now rewrite Hs, Hp.
  - intros Hs Hp. apply HasPrefix_false in Hp. apply HasPrefix_false in Hs.
    now rewrite Hs, Hp.
Qed.

Lemma transport_classification_witness :
  transport "https://example.com" = TransportHTTPS
  /\ transport "http" = TransportHTTP
  /\ transport "ftp" = TransportUnknown.
Proof.
  split; [|split].
  - apply (proj1 (transport_classification "https://example.com")).
    exists "://example.com". reflexivity.
  - apply (proj1 (proj2 (transport_classification "http"))).
    + exists "". reflexivity.
    + intros [rest H]. discriminate H.
  - apply (proj1 (proj2 (proj2 (transport_classification "ftp")))).
    + intros [rest H]. discriminate H.
    + intros [rest H]. discriminate H.
Defined.



(** C6.  The transaction name is the request's method, one space, and the
    request's path; for GET and /users/42 it is the string GET /users/42. *)
Theorem transaction_name (c : Ctx) :
  createTransactionName c = HeaderMethod c ++ " " ++ URIPath c
  /\ (HeaderMethod c = "GET" -> URIPath c = "/users/42" ->
      createTransactionName c = "GET /users/42").
Proof.
  assert (H : createTransactionName c = HeaderMethod c ++ " " ++ URIPath c).
  { unfold createTransactionName. cbn [Sprintf].
    now rewrite append_empty. }
  split; [exact H|]. intros Hm Hp. now rewrite H, Hm, Hp.
Qed.

Lemma transaction_name_witness :
  createTransactionName
    (mkCtx "example.com" "GET" "GET" "http" "/users/42" "" 200 Background)
  = "GET /users/42".
Proof.
  apply (proj2 (transaction_name
                  (mkCtx "example.com" "GET" "GET" "http" "/users/42" "" 200
                         Background))); reflexivity.
Defined.

(** C10.  [DefaultErrorStatusCodeHandler] looks at the dynamic type of the
    error only: for an error that is not itself a [*fiber.Error] but has
    one in its [Unwrap] chain, it returns the status code of the response,
    whatever the code of the wrapped error. *)
Theorem default_handler_does_not_unwrap
        (c : Ctx) (e : ErrorValue) (code : Z) (msg : string) :
  assert_fiber_Error (Some e) = None ->
  errors_As_fiber e = Some (code, msg) ->
  DefaultErrorStatusCodeHandler c (Some e) = ResponseStatusCode c.
Proof.
  intros Hassert _. unfold DefaultErrorStatusCodeHandler.
  now rewrite Hassert.
Qed.

Lemma default_handler_does_not_unwrap_witness :
  DefaultErrorStatusCodeHandler
    (mkCtx "example.com" "GET" "GET" "http" "/" "" 200 Background)
    (Some (Errorf_w "lookup: %w" (FiberError 404 "Not Found")))
  = 200%Z.
Proof.
  apply (default_handler_does_not_unwrap
           (mkCtx "example.com" "GET" "GET" "http" "/" "" 200 Background)
           (Errorf_w "lookup: %w" (FiberError 404 "Not Found"))
           404%Z "Not Found"); reflexivity.
Defined.

(** *** Construction *)

Lemma Application_after_default (cfg : Config) :
  Application
    (match ErrorStatusCodeHandler cfg with
     | None =>
         set_ErrorStatusCodeHandler cfg (ErrorStatusCodeHandler ConfigDefault)
     | Some _ => cfg
     end) = Application cfg.
Proof. destruct (ErrorStatusCodeHandler cfg); reflexivity. Qed.

(** With an application injected, [New] returns the closure over it,
    whatever the other fields and whatever the library would answer. *)
Lemma New_injected
      (newApp : string -> string -> bool -> NewRelic.Application + ErrorValue)
      (cfg : Config) (app : NewRelic.Application) :
  Application cfg = Some app ->
  exists cfg',
    New newApp cfg = Returned (handler cfg' app)
    /\ ErrorStatusCodeHandler cfg' = Some (statusCodeHandlerOf cfg).
Proof.
  intros Happ. unfold New, statusCodeHandlerOf.
  destruct cfg as [lic name en tt a [h|]]; cbn in *; subst a;
    eexists; split; reflexivity.
Qed.

(** C3.  [New] on a configuration with a nil [Application] and an empty
    [License] panics, with the error that says the license can not be
    empty, and returns no handler.  With a non-empty [License] that panic
    does not happen, and with an [Application] injected [New] returns a
    handler. *)
Theorem New_license_required
        (newApp : string -> string -> bool -> NewRelic.Application + ErrorValue)
        (cfg : Config) :
  (Application cfg = None -> License cfg = "" ->
   New newApp cfg = Panicked LicenseEmpty
   /\ forall mw, New newApp cfg <> Returned mw)
  /\ (License cfg <> "" -> New newApp cfg <> Panicked LicenseEmpty)
  /\ (forall app, Application cfg = Some app ->
                  exists mw, New newApp cfg = Returned mw).
Proof.
  split; [|split].
  - intros Happ Hlic.
    assert (H : New newApp cfg = Panicked LicenseEmpty).
    { unfold New. rewrite Application_after_default, Happ.
      destruct cfg as [lic name en tt a [h|]]; cbn in *; subst lic;
        destruct (String.eqb name ""); reflexivity. }
    split; [exact H|]. intros mw Hmw. rewrite H in Hmw. discriminate Hmw.
  - intros Hlic. unfold New. rewrite Application_after_default.
    destruct (Application cfg) as [app|] eqn:Happ; [discriminate|].
    assert (Hne : String.eqb (License cfg) "" = false)
      by now apply String.eqb_neq.
    destruct cfg as [lic name en tt a [h|]]; cbn in *;
      destruct (String.eqb name ""); cbn; rewrite Hne;
      destruct (newApp _ _ _); discriminate.
  - intros app Happ.
    destruct (New_injected newApp cfg app Happ) as (cfg' & H & _).
    now exists (handler cfg' app).
Qed.

Lemma New_license_required_witness :
  New (fun _ _ _ => inl (AppHandle 0))
      (mkConfig "" "orders" true "" None None)
  = Panicked LicenseEmpty
  /\ New (fun _ _ _ => inl (AppHandle 0))
         (mkConfig "0123456789012345678901234567890123456789" "orders" true
                   "" None None)
     <> Panicked LicenseEmpty
  /\ exists mw,
       New (fun _ _ _ => inr (ErrorString "unreachable"))
           (mkConfig "" "" false "" (Some (AppHandle 7)) None)
       = Returned mw.
Proof.
  split; [|split].
  - apply (proj1 (New_license_required
                    (fun _ _ _ => inl (AppHandle 0))
                    (mkConfig "" "orders" true "" None None)));
      reflexivity.
  - apply (proj1 (proj2 (New_license_required
                    (fun _ _ _ => inl (AppHandle 0))
                    (mkConfig "0123456789012345678901234567890123456789"
                              "orders" true "" None None)))).
    cbn. intros H. discriminate H.
  - apply (proj2 (proj2 (New_license_required
                    (fun _ _ _ => inr (ErrorString "unreachable"))
                    (mkConfig "" "" false "" (Some (AppHandle 7)) None)))
             (AppHandle 7)).
    reflexivity.
Defined.

(** C8.  With an [Application] injected, [License] and [AppName] are not
    looked at: two configurations with the same non-nil [Application] and
    the same [ErrorStatusCodeHandler] give, whatever their other fields and
    whatever the library would answer to their credentials, two handlers
    that act alike on every request; neither construction panics, so the
    [License] is not validated. *)
Theorem New_injected_ignores_credentials
        (newApp1 newApp2 :
           string -> string -> bool -> NewRelic.Application + ErrorValue)
        (cfg1 cfg2 : Config) (app : NewRelic.Application) :
  Application cfg1 = Some app ->
  Application cfg2 = Some app ->
  ErrorStatusCodeHandler cfg1 = ErrorStatusCodeHandler cfg2 ->
  exists mw1 mw2,
    New newApp1 cfg1 = Returned mw1
    /\ New newApp2 cfg2 = Returned mw2
    /\ forall next w, mw1 next w = mw2 next w.
Proof.
  intros H1 H2 Hh.
  destruct (New_injected newApp1 cfg1 app H1) as (c1 & E1 & Hc1).
  destruct (New_injected newApp2 cfg2 app H2) as (c2 & E2 & Hc2).
  exists (handler c1 app), (handler c2 app).
  split; [exact E1|]. split; [exact E2|].
  intros next w.
  rewrite (handler_run c1 app _ next w Hc1).
  rewrite (handler_run c2 app _ next w Hc2).
  unfold statusCodeHandlerOf. now rewrite Hh.
Qed.

Lemma New_injected_ignores_credentials_witness :
  exists mw1 mw2,
    New (fun _ _ _ => inr (ErrorString "license length is not 40"))
        (mkConfig "" "" false "" (Some (AppHandle 7)) None)
    = Returned mw1
    /\ New (fun _ _ _ => inl (AppHandle 0))
           (mkConfig "secret" "orders" true "HTTPS" (Some (AppHandle 7)) None)
       = Returned mw2
    /\ forall next w, mw1 next w = mw2 next w.
Proof.
  apply (New_injected_ignores_credentials
           (fun _ _ _ => inr (ErrorString "license length is not 40"))
           (fun _ _ _ => inl (AppHandle 0))
           (mkConfig "" "" false "" (Some (AppHandle 7)) None)
           (mkConfig "secret" "orders" true "HTTPS" (Some (AppHandle 7)) None)
           (AppHandle 7)); reflexivity.
Defined.

(** *** Requests *)

Lemma handler_ext (cfg1 cfg2 : Config) (app : NewRelic.Application)
      (h : Ctx -> error_t -> Z) :
  ErrorStatusCodeHandler cfg1 = Some h ->
  ErrorStatusCodeHandler cfg2 = Some h ->
  forall next w, handler cfg1 app next w = handler cfg2 app next w.
Proof.
  intros H1 H2 next w.
  now rewrite (handler_run cfg1 app h next w H1),
              (handler_run cfg2 app h next w H2).
Qed.

(** Membership in an explicit trace, case by case: the cases that do not
    fit the shape of the event looked for are closed. *)
Ltac event_cases H :=
  simpl in H;
  repeat (destruct H as [H|H]; [try discriminate H|]);
  try contradiction.





(** *** The transaction in the context *)

Lemma Value_without_transaction (ctx : Context) (key : ContextKey) :
  carriesNoTransaction ctx = true ->
  forall t, Value ctx key <> Some (TxnValue t).
Proof.
  induction ctx as [|parent IH k v]; intros H t; simpl.
  - discriminate.
  - destruct v as [t'|s]; simpl in H; [discriminate|].
    destruct (ContextKey_eqb k key); [discriminate | now apply IH].
Qed.

(** C7.  [FromContext] only looks up: on a context in which no transaction
    was ever stored it returns nil, and a call of it leaves the context, the
    transactions and the trace as they were.  The context the middleware
    hands to the rest of the chain gives the transaction the middleware
    started for this request, the only one it started; and so does the
    context after the request, if the chain left the user context alone. *)
Theorem FromContext_lookup :
  (forall c, carriesNoTransaction (UserContext c) = true ->
             FromContext c = None)
  /\ (forall w, callFromContext w = (Returned (FromContext (w_ctx w)), w))
  /\ (forall newApp cfg mw next w,
        New newApp cfg = Returned mw ->
        let w' := snd (mw next w) in
        let evs := emitted w w' in
        exists app name txn,
          count isStart evs = 1%nat
          /\ In (EvStartTransaction app name txn) evs
          /\ In (EvNext (published w) (fst (next (published w)))) evs
          /\ (forall c1 r, In (EvNext c1 r) evs -> FromContext c1 = Some txn)
          /\ (UserContext (snd (next (published w)))
              = UserContext (published w) ->
              FromContext (w_ctx w') = Some txn)).
Proof.
  split; [|split].
  - intros c H. unfold FromContext, NewRelic.FromContext.
    pose proof (Value_without_transaction _ TransactionContextKey H) as H1.
    pose proof (Value_without_transaction _ GinTransactionContextKey H) as H2.
    destruct (Value (UserContext c) TransactionContextKey) as [[t|s]|];
      [now elim (H1 t)| |];
      (destruct (Value (UserContext c) GinTransactionContextKey) as [[t|s']|];
       [now elim (H2 t)|reflexivity|reflexivity]).
  - reflexivity.
  - intros newApp cfg mw next w HNew.
    destruct (middleware_run _ _ _ HNew) as [app Hrun].
    cbv zeta. rewrite Hrun. cbn [fst snd w_ctx w_txns w_trace].
    rewrite emitted_app. unfold requestEvents.
    exists app, (createTransactionName (w_ctx w)), (w_txns w).
    destruct (next (published w)) as [[[e|]|v] c2];
      cbn [fst snd reported List.app];
      (split; [reflexivity|]; split; [simpl; auto|]; split; [simpl; auto|];
       split;
       [ intros c1 r H; event_cases H; injection H as <- _; reflexivity
       | intros Huc; unfold FromContext; rewrite Huc; reflexivity ]).
Qed.

Lemma FromContext_lookup_witness :
  FromContext sampleCtx = None
  /\ exists app name txn,
       In (EvStartTransaction app name txn)
          (emitted sampleWorld (snd (sampleMiddleware chainOK sampleWorld)))
       /\ FromContext (w_ctx (snd (sampleMiddleware chainOK sampleWorld)))
          = Some txn.
Proof.
  destruct FromContext_lookup as (Hfresh & _ & Hmw). split.
  - apply Hfresh. reflexivity.
  - destruct (Hmw noLibrary sampleConfig sampleMiddleware chainOK sampleWorld
                  eq_refl) as (app & name & txn & _ & Hstart & _ & _ & Hafter).
    exists app, name, txn. split; [exact Hstart|]. apply Hafter. reflexivity.
Defined.

(** *** The deprecated field *)

(** C9.  [TransportType] is never read: two configurations that differ in
    that field only construct alike (the same panic, or handlers that act
    alike on every request), and the transport of every [SetWebRequest] of a
    request is [transport] of the scheme of the request's URL. *)
Theorem TransportType_ignored
        (newApp : string -> string -> bool -> NewRelic.Application + ErrorValue)
        (cfg : Config) :
  (forall t1 t2,
      SameConstruction (New newApp (set_TransportType cfg t1))
                       (New newApp (set_TransportType cfg t2)))
  /\ (forall mw next w txn wr,
        New newApp cfg = Returned mw ->
        In (EvSetWebRequest txn wr) (emitted w (snd (mw next w))) ->
        wr_Transport wr = transport (URIScheme (w_ctx w))).
Proof.
  split.
  - intros t1 t2. unfold New.
    destruct cfg as [lic name en tt [app|] [h|]]; cbn.
    + intros next w. eapply handler_ext; reflexivity.
    + intros next w. eapply handler_ext; reflexivity.
    + destruct (String.eqb name ""); cbn;
        (destruct (String.eqb lic ""); [reflexivity|]);
        (destruct (newApp _ _ _); cbn; [|reflexivity]);
        intros next w; eapply handler_ext; reflexivity.
    + destruct (String.eqb name ""); cbn;
        (destruct (String.eqb lic ""); [reflexivity|]);
        (destruct (newApp _ _ _); cbn; [|reflexivity]);
        intros next w; eapply handler_ext; reflexivity.
  - intros mw next w txn wr HNew.
    destruct (middleware_run _ _ _ HNew) as [app Hrun].
    rewrite Hrun. cbn [fst snd w_ctx w_txns w_trace].
    rewrite emitted_app. unfold requestEvents.
    destruct (next (published w)) as [[[e|]|v] c2];
      cbn [fst snd reported List.app];
      intros H; event_cases H; injection H as _ <-; reflexivity.
Qed.

Lemma TransportType_ignored_witness :
  SameConstruction (New noLibrary (set_TransportType sampleConfig "HTTP"))
                   (New noLibrary (set_TransportType sampleConfig "HTTPS"))
  /\ wr_Transport (webRequestOf sampleCtx) = TransportHTTPS.
Proof.
  split.
  - exact (proj1 (TransportType_ignored noLibrary sampleConfig) "HTTP" "HTTPS").
  - apply (proj2 (TransportType_ignored noLibrary sampleConfig)
                 sampleMiddleware chainOK sampleWorld 3
                 (webRequestOf sampleCtx) eq_refl).
    vm_compute. right. left. reflexivity.
Defined.

End Properties.

(** ** Further properties of the package *)

Module MoreProperties.

Import NewRelic FiberNewRelic Vocabulary Properties.

(** *** [transport] *)

Lemma IsPrefix_https_http (s : string) : IsPrefix "https" s -> IsPrefix "http" s.
Proof. intros [rest ->]. exists (String "s" rest). reflexivity. Qed.

(** X1.  Each answer of [transport] tells the prefix of the scheme: it is
    [TransportHTTPS] exactly for the strings that start with https,
    [TransportHTTP] exactly for those that start with http and not with
    https (so httpx is plain HTTP), and [TransportUnknown] exactly for
    those that do not start with http. *)
Theorem transport_characterised (s : string) :
  (transport s = TransportHTTPS <-> IsPrefix "https" s)
  /\ (transport s = TransportHTTP <->
      IsPrefix "http" s /\ ~ IsPrefix "https" s)
  /\ (transport s = TransportUnknown <-> ~ IsPrefix "http" s).
Proof.
  unfold transport. pose proof (IsPrefix_https_http s) as Himp.
  destruct (HasPrefix s "https") eqn:Hs;
    [apply HasPrefix_spec in Hs | apply HasPrefix_false in Hs];
    (destruct (HasPrefix s "http") eqn:Hp;
     [apply HasPrefix_spec in Hp | apply HasPrefix_false in Hp]);
    repeat split; intros; try discriminate; try reflexivity; try tauto.
Qed.

Lemma transport_characterised_witness :
  IsPrefix "http" "httpx" /\ ~ IsPrefix "https" "httpx".
Proof.
  apply (proj1 (proj2 (transport_characterised "httpx"))). reflexivity.
Defined.

(** *** [createTransactionName] *)

Lemma createTransactionName_join (c : Ctx) :
  createTransactionName c = HeaderMethod c ++ String " " (URIPath c).
Proof.
  unfold createTransactionName. cbn [Sprintf]. now rewrite append_empty.
Qed.

Lemma join_space_injective (m1 : string) :
  forall m2 p1 p2,
    noSpace m1 = true -> noSpace m2 = true ->
    m1 ++ String " " p1 = m2 ++ String " " p2 ->
    m1 = m2 /\ p1 = p2.
Proof.
  induction m1 as [|a m1 IH]; intros [|b m2] p1 p2 H1 H2 Heq; simpl in *.
  - injection Heq as ->. split; reflexivity.
  - injection Heq as <- _. discriminate H2.
  - injection Heq as -> _. discriminate H1.
  - injection Heq as -> Heq.
    apply andb_true_iff in H1 as [_ H1]. apply andb_true_iff in H2 as [_ H2].
    destruct (IH m2 p1 p2 H1 H2 Heq) as [-> ->]. split; reflexivity.
Qed.

(** X2.  Requests whose methods hold no space (as the method of a parsed
    request line) get the same transaction name only when they have the same
    method and the same path: the name tells method and path apart. *)
Theorem transaction_name_injective (c1 c2 : Ctx) :
  noSpace (HeaderMethod c1) = true ->
  noSpace (HeaderMethod c2) = true ->
  createTransactionName c1 = createTransactionName c2 ->
  HeaderMethod c1 = HeaderMethod c2 /\ URIPath c1 = URIPath c2.
Proof.
  intros H1 H2. rewrite !createTransactionName_join.
  now apply join_space_injective.
Qed.

Lemma transaction_name_injective_witness :
  HeaderMethod sampleCtx
  = HeaderMethod (mkCtx "other.org" "POST" "GET" "http" "/users/42" "" 404
                        Background)
  /\ URIPath sampleCtx
     = URIPath (mkCtx "other.org" "POST" "GET" "http" "/users/42" "" 404
                      Background).
Proof.
  apply (transaction_name_injective
           sampleCtx
           (mkCtx "other.org" "POST" "GET" "http" "/users/42" "" 404
                  Background)); reflexivity.
Defined.

(** *** [New] *)

(** X3.  Leaving [ErrorStatusCodeHandler] nil is the same as setting it to
    [DefaultErrorStatusCodeHandler]: the two constructions panic alike or
    return handlers that act alike on every request. *)
Theorem New_nil_handler_is_default
        (newApp : string -> string -> bool -> NewRelic.Application + ErrorValue)
        (cfg : Config) :
  SameConstruction
    (New newApp (set_ErrorStatusCodeHandler cfg None))
    (New newApp (set_ErrorStatusCodeHandler
                   cfg (Some DefaultErrorStatusCodeHandler))).
Proof.
  unfold New. destruct cfg as [lic name en tt [app|] h]; cbn.
  - intros next w. eapply handler_ext; reflexivity.
  - destruct (String.eqb name ""); cbn;
      (destruct (String.eqb lic ""); [reflexivity|]);
      (destruct (newApp _ _ _); cbn; [|reflexivity]);
      intros next w; eapply handler_ext; reflexivity.
Qed.

(** X4.  Without an injected application and with a non-empty license,
    [New] asks the library once, for an application with the configured name
    (fiber-api when the name is empty), the configured license and the
    configured enabled flag: libraries that answer alike there give the same
    construction.  When the answer is an application, every transaction of
    the returned middleware is started on it. *)
Theorem New_builds_application
        (newApp newApp' :
           string -> string -> bool -> NewRelic.Application + ErrorValue)
        (cfg : Config) :
  Application cfg = None ->
  License cfg <> "" ->
  (newApp' (applicationNameOf cfg) (License cfg) (Enabled cfg)
   = newApp (applicationNameOf cfg) (License cfg) (Enabled cfg) ->
   SameConstruction (New newApp cfg) (New newApp' cfg))
  /\ (forall app,
        newApp (applicationNameOf cfg) (License cfg) (Enabled cfg) = inl app ->
        exists mw,
          New newApp cfg = Returned mw
          /\ forall next w a name txn,
               In (EvStartTransaction a name txn)
                  (emitted w (snd (mw next w))) ->
               a = app).
Proof.
  intros Happ Hlic. apply String.eqb_neq in Hlic.
  unfold New, applicationNameOf.
  destruct cfg as [lic name en tt a h]; cbn in *; subst a. split.
  - intros Hsame.
    destruct h as [h|]; cbn;
      (destruct (String.eqb name ""); cbn; rewrite Hlic; rewrite Hsame;
       (destruct (newApp _ _ _); cbn; [|reflexivity]);
       intros next w; eapply handler_ext; reflexivity).
  - intros app Hnew.
    destruct h as [h|]; cbn;
      (destruct (String.eqb name ""); cbn; rewrite Hlic; rewrite Hnew;
       eexists; (split; [reflexivity|]);
       intros next w a' n txn;
       erewrite handler_run by reflexivity;
       cbn [fst snd w_ctx w_txns w_trace]; rewrite emitted_app;
       unfold requestEvents;
       destruct (next (published w)) as [[[e|]|v] c2];
       cbn [fst snd reported List.app];
       intros H; event_cases H; now injection H as <- _ _).
Qed.

Lemma New_builds_application_witness :
  exists mw,
    New (fun name _ _ =>
           if String.eqb name "fiber-api" then inl (AppHandle 1)
           else inr (ErrorString "unexpected name"))
        (mkConfig "0123456789012345678901234567890123456789" "" true "" None
                  None)
    = Returned mw
    /\ forall next w a name txn,
         In (EvStartTransaction a name txn) (emitted w (snd (mw next w))) ->
         a = AppHandle 1.
Proof.
  destruct (New_builds_application
              (fun name _ _ =>
                 if String.eqb name "fiber-api" then inl (AppHandle 1)
                 else inr (ErrorString "unexpected name"))
              (fun _ _ _ => inr (ErrorString "unused"))
              (mkConfig "0123456789012345678901234567890123456789" ""
                        true "" None None)
              eq_refl) as [_ H].
  - cbn. discriminate.
  - apply H. reflexivity.
Defined.

(** X5.  When the library refuses to build the application, [New] panics
    with an error that wraps the library's error: [Unwrap] gives it back,
    and the message is the package's prefix followed by the library's
    message. *)
Theorem New_library_failure
        (newApp : string -> string -> bool -> NewRelic.Application + ErrorValue)
        (cfg : Config) (err : ErrorValue) :
  Application cfg = None ->
  License cfg <> "" ->
  newApp (applicationNameOf cfg) (License cfg) (Enabled cfg) = inr err ->
  exists v,
    New newApp cfg = Panicked v
    /\ Unwrap v = Some err
    /\ Error v = "unable to create New Relic Application -> " ++ Error err
    /\ v <> LicenseEmpty.
Proof.
  intros Happ Hlic Hnew. apply String.eqb_neq in Hlic.
  unfold New, applicationNameOf in *.
  destruct cfg as [lic name en tt a h]; cbn in *; subst a.
  exists (Errorf_w "unable to create New Relic Application -> %w" err).
  split; [|split; [reflexivity|split]].
  - destruct h as [h|]; cbn;
      destruct (String.eqb name ""); cbn in *; rewrite Hlic, Hnew; reflexivity.
  - cbn. now rewrite append_empty.
  - discriminate.
Qed.

Lemma New_library_failure_witness :
  exists v,
    New (fun _ _ _ => inr (ErrorString "license length is not 40"))
        (mkConfig "short" "orders" true "" None None)
    = Panicked v
    /\ Unwrap v = Some (ErrorString "license length is not 40")
    /\ Error v
       = "unable to create New Relic Application -> license length is not 40"
    /\ v <> LicenseEmpty.
Proof.
  apply (New_library_failure
           (fun _ _ _ => inr (ErrorString "license length is not 40"))
           (mkConfig "short" "orders" true "" None None)
           (ErrorString "license length is not 40")).
  - reflexivity.
  - cbn. discriminate.
  - reflexivity.
Defined.

(** *** Requests *)

(** X6.  When the call [c.Next()] of a request returns nil, the middleware
    returns nil, calls [NoticeError] not at all, and writes to the
    transaction, once, the status code of the response as the chain left
    it; the error mapping of the configuration plays no part. *)
Theorem handler_success_reported
        (newApp : string -> string -> bool -> NewRelic.Application + ErrorValue)
        (cfg : Config) (mw : Handler) (next : Downstream) (w : World)
        (c1 : Ctx) :
  New newApp cfg = Returned mw ->
  In (EvNext c1 (Returned None)) (emitted w (snd (mw next w))) ->
  let w' := snd (mw next w) in
  let evs := emitted w w' in
  next c1 = (Returned None, w_ctx w')
  /\ fst (mw next w) = Returned None
  /\ count isNoticeError evs = 0%nat
  /\ count isWriteHeader evs = 1%nat
  /\ exists app name txn,
       In (EvStartTransaction app name txn) evs
       /\ forall t code,
            In (EvWriteHeader t code) evs <->
            t = txn /\ code = ResponseStatusCode (w_ctx w').
Proof.
  intros HNew. destruct (middleware_run _ _ _ HNew) as [app Hrun].
  cbv zeta. rewrite Hrun. cbn [fst snd w_ctx w_txns w_trace].
  rewrite emitted_app. unfold requestEvents.
  destruct (next (published w)) as [r c2] eqn:Hnext. cbn [fst snd].
  intros Hin.
  assert (Hev : c1 = published w /\ r = Returned None).
  { destruct r as [[e'|]|v]; cbn in Hin;
      repeat (destruct Hin as [Hin|Hin]; try discriminate Hin;
              try (injection Hin as <-; split; reflexivity));
      try contradiction. }
  destruct Hev as [-> ->]. rewrite Hnext.
  cbn [reported List.app].
  split; [reflexivity|]. split; [reflexivity|].
  split; [reflexivity|]. split; [reflexivity|].
  exists app, (createTransactionName (w_ctx w)), (w_txns w).
  split; [simpl; auto|].
  intros t code. split.
  - intros H. event_cases H. now injection H as <- <-.
  - intros [-> ->]. simpl. auto 10.
Qed.

Lemma handler_success_reported_witness :
  fst (sampleMiddleware chainOK sampleWorld) = Returned None
  /\ count isNoticeError
           (emitted sampleWorld (snd (sampleMiddleware chainOK sampleWorld)))
     = 0%nat.
Proof.
  destruct (handler_success_reported
              noLibrary sampleConfig sampleMiddleware chainOK sampleWorld
              (published sampleWorld) eq_refl) as (_ & Hret & Hnone & _).
  - vm_compute. right. right. left. reflexivity.
  - split; [exact Hret | exact Hnone].
Defined.

(** X7.  When the rest of the chain panics, the middleware panics with the
    same value; the deferred [End] is the one thing it still does, right
    after the call: it records no error, and writes no response and no
    status code to the transaction. *)
Theorem handler_panic_propagated
        (newApp : string -> string -> bool -> NewRelic.Application + ErrorValue)
        (cfg : Config) (mw : Handler) (next : Downstream) (w : World)
        (c1 : Ctx) (v : ErrorValue) :
  New newApp cfg = Returned mw ->
  In (EvNext c1 (Panicked v)) (emitted w (snd (mw next w))) ->
  let w' := snd (mw next w) in
  let evs := emitted w w' in
  fst (mw next w) = Panicked v
  /\ count isNoticeError evs = 0%nat
  /\ count isSetWebResponse evs = 0%nat
  /\ count isWriteHeader evs = 0%nat
  /\ count isEnd evs = 1%nat
  /\ exists app name txn wr,
       evs = [EvStartTransaction app name txn; EvSetWebRequest txn wr;
              EvNext c1 (Panicked v); EvEnd txn].
Proof.
  intros HNew. destruct (middleware_run _ _ _ HNew) as [app Hrun].
  cbv zeta. rewrite Hrun. cbn [fst snd w_ctx w_txns w_trace].
  rewrite emitted_app. unfold requestEvents.
  destruct (next (published w)) as [r c2] eqn:Hnext. cbn [fst snd].
  intros Hin.
  assert (Hev : c1 = published w /\ r = Panicked v).
  { destruct r as [[e'|]|v']; cbn in Hin;
      repeat (destruct Hin as [Hin|Hin]; try discriminate Hin;
              try (injection Hin as <- <-; split; reflexivity));
      try contradiction. }
  destruct Hev as [-> ->]. cbn [reported List.app].
  repeat (split; [reflexivity|]).
  eexists _, _, _, _. reflexivity.
Qed.

Lemma handler_panic_propagated_witness :
  fst (sampleMiddleware chainPanics sampleWorld)
  = Panicked (ErrorString "index out of range")
  /\ count isEnd
           (emitted sampleWorld (snd (sampleMiddleware chainPanics sampleWorld)))
     = 1%nat.
Proof.
  destruct (handler_panic_propagated
              noLibrary sampleConfig sampleMiddleware chainPanics sampleWorld
              (published sampleWorld) (ErrorString "index out of range")
              eq_refl) as (Hret & _ & _ & _ & Hend & _).
  - vm_compute. right. right. left. reflexivity.
  - split; [exact Hret | exact Hend].
Defined.

(** X8.  Every request gives the transaction its request metadata once,
    after the start and before the rest of the chain runs, and the metadata
    are those of the context as the request came in: host, method, and a URL
    of the request's scheme, host, path and query string.  What the chain
    does to the context does not change them. *)
Theorem web_request_metadata
        (newApp : string -> string -> bool -> NewRelic.Application + ErrorValue)
        (cfg : Config) (mw : Handler) (next : Downstream) (w : World) :
  New newApp cfg = Returned mw ->
  let evs := emitted w (snd (mw next w)) in
  count isSetWebRequest evs = 1%nat
  /\ Precedes isStart isSetWebRequest evs
  /\ Precedes isSetWebRequest isNext evs
  /\ forall t wr,
       In (EvSetWebRequest t wr) evs ->
       wr_Host wr = Hostname (w_ctx w)
       /\ wr_Method wr = Method (w_ctx w)
       /\ url_Scheme (wr_URL wr) = URIScheme (w_ctx w)
       /\ url_Host (wr_URL wr) = Hostname (w_ctx w)
       /\ url_Path (wr_URL wr) = URIPath (w_ctx w)
       /\ url_RawQuery (wr_URL wr) = URIQueryString (w_ctx w).
Proof.
  intros HNew. destruct (middleware_run _ _ _ HNew) as [app Hrun].
  cbv zeta. rewrite Hrun. cbn [fst snd w_ctx w_txns w_trace].
  rewrite emitted_app. unfold requestEvents.
  destruct (next (published w)) as [[[e|]|v] c2];
    cbn [fst snd reported List.app];
    (split; [reflexivity|];
     split; [apply precedesb_sound; reflexivity|];
     split; [apply precedesb_sound; reflexivity|];
     intros t wr H; event_cases H; injection H as _ <-;
     repeat split; reflexivity).
Qed.

Lemma web_request_metadata_witness :
  count isSetWebRequest
        (emitted sampleWorld
                 (snd (sampleMiddleware
                         (fun c => (Returned None,
                                    mkCtx "changed" "PUT" "PUT" "ftp" "/x" ""
                                          500 (UserContext c)))
                         sampleWorld)))
  = 1%nat.
Proof.
  exact (proj1 (web_request_metadata
                  noLibrary sampleConfig sampleMiddleware
                  (fun c => (Returned None,
                             mkCtx "changed" "PUT" "PUT" "ftp" "/x" "" 500
                                   (UserContext c)))
                  sampleWorld eq_refl)).
Defined.

Lemma Value_published (w : World) (key : ContextKey) :
  key <> TransactionContextKey ->
  Value (UserContext (published w)) key = Value (UserContext (w_ctx w)) key.
Proof.
  intros Hkey. unfold published, SetUserContext, NewContext. cbn.
  destruct key; [now elim Hkey | reflexivity | reflexivity].
Qed.

(** X9.  The middleware changes nothing in the Fiber context but the user
    context, in which it binds the library's transaction key and no other:
    the rest of the chain sees the request, the response status and every
    other value of the user context as they came in.  After the call the
    middleware leaves the context as the chain left it. *)
Theorem context_preserved
        (newApp : string -> string -> bool -> NewRelic.Application + ErrorValue)
        (cfg : Config) (mw : Handler) (next : Downstream) (w : World)
        (c1 : Ctx) (r : Outcome error_t) :
  New newApp cfg = Returned mw ->
  In (EvNext c1 r) (emitted w (snd (mw next w))) ->
  Hostname c1 = Hostname (w_ctx w)
  /\ Method c1 = Method (w_ctx w)
  /\ HeaderMethod c1 = HeaderMethod (w_ctx w)
  /\ URIScheme c1 = URIScheme (w_ctx w)
  /\ URIPath c1 = URIPath (w_ctx w)
  /\ URIQueryString c1 = URIQueryString (w_ctx w)
  /\ ResponseStatusCode c1 = ResponseStatusCode (w_ctx w)
  /\ (forall key, key <> TransactionContextKey ->
                  Value (UserContext c1) key
                  = Value (UserContext (w_ctx w)) key)
  /\ w_ctx (snd (mw next w)) = snd (next c1).
Proof.
  intros HNew. destruct (middleware_run _ _ _ HNew) as [app Hrun].
  rewrite Hrun. cbn [fst snd w_ctx w_txns w_trace].
  rewrite emitted_app. unfold requestEvents.
  intros Hin.
  assert (Hc : c1 = published w).
  { destruct (next (published w)) as [[[e|]|v] c2];
      cbn [fst snd reported List.app] in Hin;
      event_cases Hin; now injection Hin as <- _. }
  subst c1. repeat (split; [reflexivity|]).
  split; [|reflexivity].
  intros key Hkey. now apply Value_published.
Qed.

Lemma context_preserved_witness :
  Value (UserContext
           (published
              (mkWorld (mkCtx "example.com" "GET" "GET" "http" "/" "" 200
                              (WithValue Background (UserKey "request-id")
                                         (OtherValue "r-17")))
                       0 [])))
        (UserKey "request-id")
  = Some (OtherValue "r-17").
Proof.
  pose proof (context_preserved
                noLibrary sampleConfig sampleMiddleware chainOK
                (mkWorld (mkCtx "example.com" "GET" "GET" "http" "/" "" 200
                                (WithValue Background (UserKey "request-id")
                                           (OtherValue "r-17")))
                         0 [])
                (published
                   (mkWorld (mkCtx "example.com" "GET" "GET" "http" "/" "" 200
                                   (WithValue Background (UserKey "request-id")
                                              (OtherValue "r-17")))
                            0 []))
                (Returned None) eq_refl) as H.
  destruct H as (_ & _ & _ & _ & _ & _ & _ & Hval & _).
  - vm_compute. right. right. left. reflexivity.
  - rewrite (Hval (UserKey "request-id")); [reflexivity | discriminate].
Defined.





(** X12.  All calls a request makes into the monitoring library are made on
    one transaction, the one the request started: the middleware never
    touches a transaction of another request. *)
Theorem single_transaction
        (newApp : string -> string -> bool -> NewRelic.Application + ErrorValue)
        (cfg : Config) (mw : Handler) (next : Downstream) (w : World) :
  New newApp cfg = Returned mw ->
  exists app name txn,
    In (EvStartTransaction app name txn) (emitted w (snd (mw next w)))
    /\ forall ev t,
         In ev (emitted w (snd (mw next w))) -> txnOf ev = Some t -> t = txn.
Proof.
  intros HNew. destruct (middleware_run _ _ _ HNew) as [app Hrun].
  rewrite Hrun. cbn [fst snd w_ctx w_txns w_trace].
  rewrite emitted_app. unfold requestEvents.
  exists app, (createTransactionName (w_ctx w)), (w_txns w).
  destruct (next (published w)) as [[[e|]|v] c2];
    cbn [fst snd reported List.app];
    (split; [simpl; auto|]);
    intros ev t Hin Ht; simpl in Hin;
    repeat (destruct Hin as [Hin|Hin];
            [subst ev; simpl in Ht; congruence|]);
    contradiction.
Qed.

Lemma single_transaction_witness :
  exists app name txn,
    In (EvStartTransaction app name txn)
       (emitted sampleWorld (snd (sampleMiddleware chainNotFound sampleWorld)))
    /\ forall ev t,
         In ev (emitted sampleWorld
                        (snd (sampleMiddleware chainNotFound sampleWorld))) ->
         txnOf ev = Some t -> t = txn.
Proof.
  exact (single_transaction noLibrary sampleConfig sampleMiddleware
                            chainNotFound sampleWorld eq_refl).
Defined.

End MoreProperties.
